(** * DrawerItem: press dispatch and presentation of a drawer row

    A shallow embedding of [packages/drawer/src/views/DrawerItem.tsx]:
    the two components [LinkPressable] and [DrawerItem], the values they
    build (React elements, style arrays, prop objects) and the effects of
    the click interceptor that [LinkPressable] installs on the web.

    Prop objects are finite maps from prop names to values, so that the
    object rest pattern ([...rest]), the JSX spread ([{...rest}]) and the
    [in] operator are the map operations they are in JavaScript. *)

From Stdlib Require Import QArith.
From stdpp Require Import gmap strings list fin_maps.

Local Open Scope string_scope.

(** ** Events and effects *)

(** The [button] field of an event: [undefined], [null] or a number. *)
Inductive Button :=
| ButtonUndefined
| ButtonNull
| ButtonNum (n : Z).

(** What the interceptor reads from the event object it receives:
    [instanceofMouseEvent] is the outcome of [e instanceof MouseEvent]. *)
Record Event := {
  instanceofMouseEvent : bool;
  metaKey : bool;
  altKey : bool;
  ctrlKey : bool;
  shiftKey : bool;
  button : Button;
}.

(** The observable actions of a handler: [e.preventDefault()] and the call
    of a function supplied by the caller, named by [f], on the event. *)
Inductive Effect :=
| PreventDefault
| Invoke (f : string) (e : Event).

Fixpoint invocations (f : string) (t : list Effect) : nat :=
  match t with
  | [] => 0
  | Invoke g _ :: t' => (if String.eqb f g then 1 else 0) + invocations f t'
  | PreventDefault :: t' => invocations f t'
  end.

Fixpoint preventions (t : list Effect) : nat :=
  match t with
  | [] => 0
  | PreventDefault :: t' => S (preventions t')
  | Invoke _ _ :: t' => preventions t'
  end.

(** ** Values *)

Inductive Component := View | Text | Link | PlatformPressable | Fragment.

(** JavaScript values as far as the component handles them. A function
    value is given by what calling it on an event does; an element by its
    type and its props (children are the prop [children]). Numbers are
    rationals: NaN and the infinities are left out. *)
#[warnings="-register-all"]
Inductive Val :=
| VUndefined
| VNull
| VBool (b : bool)
| VNum (n : Q)
| VStr (s : string)
| VFun (h : Event -> list Effect)
| VObj (fields : gmap string Val)
| VArr (items : list Val)
| VElem (type : Component) (props : gmap string Val).

(** A function supplied by the caller: calling it is recorded under its name. *)
Definition callback (name : string) : Val := VFun (fun e => [Invoke name e]).

(** JavaScript truthiness, as used by [||] and [? :]. *)
Definition truthy (v : Val) : bool :=
  match v with
  | VUndefined | VNull => false
  | VBool b => b
  | VNum n => negb (Qeq_bool n 0)
  | VStr s => negb (String.eqb s "")
  | VFun _ | VObj _ | VArr _ | VElem _ _ => true
  end.

(** [v ?? undefined] *)
Definition nullish_undefined (v : Val) : Val :=
  match v with
  | VNull | VUndefined => VUndefined
  | _ => v
  end.

(** [props.k]: reading a key that is absent gives [undefined]. *)
Definition prop (props : gmap string Val) (k : string) : Val :=
  default VUndefined (props !! k).

(** [v.k] on a value. *)
Definition member (v : Val) (k : string) : Val :=
  match v with
  | VObj fields => prop fields k
  | VElem _ props => prop props k
  | _ => VUndefined
  end.

(** [a[i]] on a value. *)
Definition index (v : Val) (i : nat) : Val :=
  match v with
  | VArr items => default VUndefined (items !! i)
  | _ => VUndefined
  end.

(** [k in o] *)
Definition has_key (k : string) (o : gmap string Val) : bool :=
  match o !! k with
  | Some _ => true
  | None => false
  end.

(** The object rest pattern: the own keys that were not picked by name. *)
Definition omit (picked : list string) (o : gmap string Val) : gmap string Val :=
  foldr delete o picked.

(** [f?.(e)] *)
Definition optional_call (f : Val) (e : Event) : list Effect :=
  match f with
  | VFun h => h e
  | _ => []
  end.

Definition opt_str (o : option string) : Val :=
  match o with Some s => VStr s | None => VUndefined end.

Definition opt_bool (o : option bool) : Val :=
  match o with Some b => VBool b | None => VUndefined end.

Definition opt_num (o : option Q) : Val :=
  match o with Some n => VNum n | None => VUndefined end.

(** ** The host: what the component imports *)

Record Colors := { primary : string; text : string }.
Record Fonts := { medium : Val }.
Record Theme := { colors : Colors; fonts : Fonts }.

(** The collaborators the file imports and does not define:
    [Platform.OS], [CommonActions.navigate], [StyleSheet.flatten],
    [useTheme] and the colour arithmetic
    [Color(c).alpha(a).rgb().string()], here [withAlpha c a]. [withAlpha]
    gives the library's result on the colour strings it parses; that it
    throws on any other string is not modelled. *)
Class Host := {
  Platform_OS : string;
  CommonActions_navigate : Val -> Val -> Val;
  StyleSheet_flatten : Val -> gmap string Val;
  useTheme : Theme;
  withAlpha : string -> Q -> string;
}.

(** How the host delivers a press or a click to an element: [Link] and
    [PlatformPressable] call the function in their [onPress] prop, once,
    with the event. *)
Definition press (el : Val) (e : Event) : list Effect :=
  optional_call (member el "onPress") e.

(** ** [styles] *)

Module styles.
Definition container : Val :=
  VObj (<["marginHorizontal" := VNum 10]>
        (<["marginVertical" := VNum 4]>
        (<["overflow" := VStr "hidden"]> ∅))).
Definition wrapper : Val :=
  VObj (<["flexDirection" := VStr "row"]>
        (<["alignItems" := VStr "center"]>
        (<["padding" := VNum 8]> ∅))).
Definition label : Val :=
  VObj (<["marginRight" := VNum 32]> (<["flex" := VNum 1]> ∅)).
Definition button : Val :=
  VObj (<["display" := VStr "flex"]> ∅).
End styles.

(** ** [LinkPressable] *)

Section LinkPressable.
Context {host : Host}.

(** The keys that the parameter pattern of [LinkPressable] picks by name;
    [rest] is everything else. *)
Definition LinkPressable_picked : list string :=
  ["route"; "href"; "children"; "style"; "onPress"; "onLongPress";
   "onPressIn"; "onPressOut"; "accessibilityRole"; "accessibilityState"].

(** The [onPress] given to [Link], closed over [rest] and [onPress]. *)
Definition Link_onPress (rest : gmap string Val) (onPress : Val)
  : Event -> list Effect :=
  fun e =>
    if instanceofMouseEvent e
       && negb (metaKey e || altKey e || ctrlKey e || shiftKey e)
       && match button e with
          | ButtonUndefined | ButtonNull => true
          | ButtonNum n => Z.eqb n 0
          end
    then
      PreventDefault ::
        (if has_key "onPress" rest then optional_call onPress e else [])
    else [].

Definition LinkPressable (props : gmap string Val) : Val :=
  let route := prop props "route" in
  let href := prop props "href" in
  let children := prop props "children" in
  let style := prop props "style" in
  let onPress := prop props "onPress" in
  let onLongPress := prop props "onLongPress" in
  let onPressIn := prop props "onPressIn" in
  let onPressOut := prop props "onPressOut" in
  let accessibilityRole := prop props "accessibilityRole" in
  let rest := omit LinkPressable_picked props in
  if String.eqb Platform_OS "web" then
    VElem Link
      (<["children" := children]>
       (<["onPressOut" := nullish_undefined onPressOut]>
       (<["onPressIn" := nullish_undefined onPressIn]>
       (<["onLongPress" := nullish_undefined onLongPress]>
       (<["onPress" := VFun (Link_onPress rest onPress)]>
       (<["style" := VArr [styles.button; style]]>
       (<["action" :=
            CommonActions_navigate (member route "name")
                                   (member route "params")]>
       (<["href" := href]> rest))))))))
  else
    VElem PlatformPressable
      (<["children" :=
           VElem View (<["children" := children]>
                       (<["style" := style]> ∅))]>
       (<["onPress" := onPress]>
       (<["accessibilityRole" := accessibilityRole]> rest))).
End LinkPressable.

(** ** [DrawerItem] *)

(** The argument of the [icon] render function. *)
Record IconProps := {
  icon_focused : bool;
  icon_size : Q;
  icon_color : string;
}.

(** The argument of a [label] render function. *)
Record LabelProps := {
  label_focused : bool;
  label_color : string;
}.

(** [label: string | ((props) => React.ReactNode)] *)
Inductive Label :=
| LabelString (s : string)
| LabelFunction (f : LabelProps -> Val).

(** [type Props]; an optional prop that is left out is [None]. [others]
    holds whatever further props the caller passes. *)
Record Props := {
  route : Val;
  href : option string;
  label : Label;
  icon : option (IconProps -> Val);
  focused : option bool;
  onPress : Val;
  activeTintColor : option string;
  inactiveTintColor : option string;
  activeBackgroundColor : option string;
  inactiveBackgroundColor : option string;
  pressColor : option string;
  pressOpacity : option Q;
  labelStyle : Val;
  style : Val;
  allowFontScaling : option bool;
  accessibilityLabel : option string;
  testID : option string;
  others : gmap string Val;
}.

(** The names bound in the body of [DrawerItem], in the order of the
    source, as functions of the props. *)
Module Item.
Section Bindings.
Context {host : Host}.
Variable props : Props.

(** [focused = false] *)
Definition focused : bool := default false (focused props).

(** [activeTintColor = colors.primary] *)
Definition activeTintColor : string :=
  default (primary (colors useTheme)) (activeTintColor props).

(** [inactiveTintColor = Color(colors.text).alpha(0.68).rgb().string()] *)
Definition inactiveTintColor : string :=
  default (withAlpha (text (colors useTheme)) 0.68) (inactiveTintColor props).

(** [activeBackgroundColor = Color(activeTintColor).alpha(0.12).rgb().string()] *)
Definition activeBackgroundColor : string :=
  default (withAlpha activeTintColor 0.12) (activeBackgroundColor props).

(** [inactiveBackgroundColor = 'transparent'] *)
Definition inactiveBackgroundColor : string :=
  default "transparent" (inactiveBackgroundColor props).

(** [const { borderRadius = 4 } = StyleSheet.flatten(style || {})] *)
Definition borderRadius : Val :=
  let style := style props in
  match StyleSheet_flatten (if truthy style then style else VObj ∅)
          !! "borderRadius" with
  | Some VUndefined | None => VNum 4
  | Some r => r
  end.

Definition color : string :=
  if focused then activeTintColor else inactiveTintColor.

Definition backgroundColor : string :=
  if focused then activeBackgroundColor else inactiveBackgroundColor.

(** [icon ? icon({ size: 24, focused, color }) : null] *)
Definition iconNode : Val :=
  match icon props with
  | Some icon =>
      icon {| icon_size := 24; icon_focused := focused; icon_color := color |}
  | None => VNull
  end.

(** The child of the label wrapper. *)
Definition labelNode : Val :=
  match label props with
  | LabelString label =>
      VElem Text
        (<["children" := VStr label]>
         (<["style" := VArr [VObj (<["color" := VStr color]> ∅);
                             medium (fonts useTheme);
                             labelStyle props]]>
         (<["allowFontScaling" := opt_bool (allowFontScaling props)]>
         (<["numberOfLines" := VNum 1]> ∅))))
  | LabelFunction label =>
      label {| label_color := color; label_focused := focused |}
  end.

(** The props of the [LinkPressable] element. *)
Definition pressableProps : gmap string Val :=
  <["children" :=
      VElem Fragment
        (<["children" :=
             VArr [iconNode;
                   VElem View
                     (<["children" := labelNode]>
                      (<["style" :=
                           VArr [styles.label;
                                 VObj (<["marginLeft" :=
                                           VNum (if truthy iconNode
                                                 then 32 else 0)]>
                                       (<["marginVertical" := VNum 5]> ∅))]]>
                       ∅))]]> ∅)]>
  (<["href" := opt_str (href props)]>
  (<["route" := route props]>
  (<["pressOpacity" := opt_num (pressOpacity props)]>
  (<["pressColor" := opt_str (pressColor props)]>
  (<["accessibilityState" :=
       VObj (<["selected" := VBool focused]> ∅)]>
  (<["accessibilityRole" := VStr "button"]>
  (<["accessibilityLabel" := opt_str (accessibilityLabel props)]>
  (<["style" :=
       VArr [styles.wrapper; VObj (<["borderRadius" := borderRadius]> ∅)]]>
  (<["onPress" := onPress props]>
  (<["testID" := opt_str (testID props)]> ∅)))))))))).
End Bindings.
End Item.

Section DrawerItem.
Context {host : Host}.

Definition DrawerItem (props : Props) : Val :=
  let rest := others props in
  VElem View
    (<["children" := LinkPressable (Item.pressableProps props)]>
     (<["style" :=
          VArr [styles.container;
                VObj (<["borderRadius" := Item.borderRadius props]>
                      (<["backgroundColor" :=
                           VStr (Item.backgroundColor props)]> ∅));
                style props]]>
     (rest ∪ <["collapsable" := VBool false]> ∅))).
End DrawerItem.

(** ** Reading a rendered row *)

(** The element that [LinkPressable] renders inside the container. *)
Definition pressable (row : Val) : Val := member row "children".

(** The style that the pressable region carries: the second entry of the
    [Link]'s style array, or the style of the [View] inside the
    [PlatformPressable]. *)
Definition regionStyle (el : Val) : Val :=
  match el with
  | VElem Link props => index (prop props "style") 1
  | VElem PlatformPressable props => member (prop props "children") "style"
  | _ => VUndefined
  end.

(** The children handed to [LinkPressable], wherever it put them. *)
Definition content (el : Val) : Val :=
  match el with
  | VElem Link props => prop props "children"
  | VElem PlatformPressable props => member (prop props "children") "children"
  | _ => VUndefined
  end.

Definition iconSlot (row : Val) : Val :=
  index (member (content (pressable row)) "children") 0.

Definition labelWrapper (row : Val) : Val :=
  index (member (content (pressable row)) "children") 1.

Definition labelChild (row : Val) : Val :=
  member (labelWrapper row) "children".

(** Entry [k] of the object literal in the container's style array. *)
Definition containerEntry (row : Val) (k : string) : Val :=
  member (index (member row "style") 1) k.

(** Entry [k] of the object literal in the pressable region's style array. *)
Definition regionEntry (row : Val) (k : string) : Val :=
  member (index (regionStyle (pressable row)) 1) k.

(** Entry [k] of the object literal in the label wrapper's style array. *)
Definition labelWrapperEntry (row : Val) (k : string) : Val :=
  member (index (member (labelWrapper row) "style") 1) k.

(** The row [row] rendered from [p] hands the colour [c] and the flag [b]
    to the icon function and to the label: as the argument of a label
    function, or as the [color] of the [Text] of a string label. *)
Definition foregroundIs (row : Val) (p : Props) (b : bool) (c : string) : Prop :=
  iconSlot row
  = match icon p with
    | Some f => f {| icon_focused := b; icon_size := 24; icon_color := c |}
    | None => VNull
    end
  /\ match label p with
     | LabelString _ =>
         member (index (member (labelChild row) "style") 0) "color" = VStr c
     | LabelFunction f =>
         labelChild row = f {| label_focused := b; label_color := c |}
     end.

(** ** Hosts and props for the examples *)

Fixpoint flattenStyle (style : Val) : gmap string Val :=
  match style with
  | VObj fields => fields
  | VArr items => foldl (fun acc s => flattenStyle s ∪ acc) ∅ items
  | _ => ∅
  end.

Definition exampleTheme : Theme :=
  {| colors := {| primary := "#007aff"; text := "#000000" |};
     fonts := {| medium := VObj (<["fontWeight" := VStr "500"]> ∅) |} |}.

Definition exampleHost (os : string) : Host :=
  {| Platform_OS := os;
     CommonActions_navigate := fun name params =>
       VObj (<["type" := VStr "NAVIGATE"]>
             (<["payload" := VObj (<["name" := name]>
                                   (<["params" := params]> ∅))]> ∅));
     StyleSheet_flatten := flattenStyle;
     useTheme := exampleTheme;
     withAlpha := fun c a =>
       c ++ (if Qeq_bool a 0.68 then "/0.68"
             else if Qeq_bool a 0.12 then "/0.12" else "/a") |}.

Definition exampleProps : Props :=
  {| route := VObj (<["name" := VStr "Home"]> (<["key" := VStr "home-1"]> ∅));
     href := Some "/home";
     label := LabelString "Home";
     icon := None;
     focused := None;
     onPress := callback "onPress";
     activeTintColor := None;
     inactiveTintColor := None;
     activeBackgroundColor := None;
     inactiveBackgroundColor := None;
     pressColor := None;
     pressOpacity := None;
     labelStyle := VUndefined;
     style := VUndefined;
     allowFontScaling := None;
     accessibilityLabel := None;
     testID := None;
     others := ∅ |}.

Definition click : Event :=
  {| instanceofMouseEvent := true; metaKey := false; altKey := false;
     ctrlKey := false; shiftKey := false; button := ButtonNum 0 |}.

Definition with_button (b : Button) (e : Event) : Event :=
  {| instanceofMouseEvent := instanceofMouseEvent e;
     metaKey := metaKey e; altKey := altKey e;
     ctrlKey := ctrlKey e; shiftKey := shiftKey e; button := b |}.

Definition shiftClick : Event :=
  {| instanceofMouseEvent := true; metaKey := false; altKey := false;
     ctrlKey := false; shiftKey := true; button := ButtonNum 0 |}.

Definition noButtonClick : Event :=
  {| instanceofMouseEvent := true; metaKey := false; altKey := false;
     ctrlKey := false; shiftKey := false; button := ButtonNull |}.

(** A focused row with an icon, a function label and a tint override. *)
Definition focusedProps : Props :=
  {| route := VObj (<["name" := VStr "Inbox"]> (<["key" := VStr "inbox-1"]> ∅));
     href := Some "/inbox";
     label := LabelFunction (fun a => VStr (label_color a));
     icon := Some (fun a =>
       VElem View (<["style" := VObj (<["backgroundColor" :=
                                          VStr (icon_color a)]> ∅)]> ∅));
     focused := Some true;
     onPress := callback "onPress";
     activeTintColor := Some "#112233";
     inactiveTintColor := None;
     activeBackgroundColor := None;
     inactiveBackgroundColor := None;
     pressColor := None;
     pressOpacity := None;
     labelStyle := VUndefined;
     style := VObj (<["borderRadius" := VNum 10]> ∅);
     allowFontScaling := None;
     accessibilityLabel := None;
     testID := None;
     others := ∅ |}.

Definition webHost : Host := exampleHost "web".
Definition nativeHost : Host := exampleHost "ios".

(** ** Variations of hosts and props *)

(** The props of an element. *)
Definition elemProps (el : Val) : gmap string Val :=
  match el with
  | VElem _ props => props
  | _ => ∅
  end.

(** The interceptor's condition on an event, as a proposition. *)
Definition plainPrimaryClick (e : Event) : Prop :=
  instanceofMouseEvent e = true
  /\ metaKey e = false /\ altKey e = false
  /\ ctrlKey e = false /\ shiftKey e = false
  /\ (button e = ButtonUndefined \/ button e = ButtonNull
      \/ button e = ButtonNum 0).

(** [p] with other inactive colours. *)
Definition with_inactive_colors (tint background : option string) (p : Props)
  : Props :=
  {| route := route p; href := href p; label := label p; icon := icon p;
     focused := focused p; onPress := onPress p;
     activeTintColor := activeTintColor p;
     inactiveTintColor := tint;
     activeBackgroundColor := activeBackgroundColor p;
     inactiveBackgroundColor := background;
     pressColor := pressColor p; pressOpacity := pressOpacity p;
     labelStyle := labelStyle p; style := style p;
     allowFontScaling := allowFontScaling p;
     accessibilityLabel := accessibilityLabel p; testID := testID p;
     others := others p |}.

(** [p] with other active colours. *)
Definition with_active_colors (tint background : option string) (p : Props)
  : Props :=
  {| route := route p; href := href p; label := label p; icon := icon p;
     focused := focused p; onPress := onPress p;
     activeTintColor := tint;
     inactiveTintColor := inactiveTintColor p;
     activeBackgroundColor := background;
     inactiveBackgroundColor := inactiveBackgroundColor p;
     pressColor := pressColor p; pressOpacity := pressOpacity p;
     labelStyle := labelStyle p; style := style p;
     allowFontScaling := allowFontScaling p;
     accessibilityLabel := accessibilityLabel p; testID := testID p;
     others := others p |}.

(** The host [h] with other theme colours and another colour arithmetic. *)
Definition with_theme_colors (c : Colors) (alpha : string -> Q -> string)
    (h : Host) : Host :=
  {| Platform_OS := @Platform_OS h;
     CommonActions_navigate := @CommonActions_navigate h;
     StyleSheet_flatten := @StyleSheet_flatten h;
     useTheme := {| colors := c; fonts := fonts (@useTheme h) |};
     withAlpha := alpha |}.

(** The host [h] on another platform. *)
Definition on_platform (os : string) (h : Host) : Host :=
  {| Platform_OS := os;
     CommonActions_navigate := @CommonActions_navigate h;
     StyleSheet_flatten := @StyleSheet_flatten h;
     useTheme := @useTheme h;
     withAlpha := @withAlpha h |}.

(** An event that is not a [MouseEvent], such as a touch. *)
Definition touch : Event :=
  {| instanceofMouseEvent := false; metaKey := false; altKey := false;
     ctrlKey := false; shiftKey := false; button := ButtonUndefined |}.

(** A row whose [icon] function renders nothing. *)
Definition blankIconProps : Props :=
  {| route := VObj (<["name" := VStr "Home"]> (<["key" := VStr "home-1"]> ∅));
     href := None;
     label := LabelString "Home";
     icon := Some (fun _ => VNull);
     focused := Some false;
     onPress := callback "onPress";
     activeTintColor := Some "#112233";
     inactiveTintColor := Some "#445566";
     activeBackgroundColor := Some "#ddeeff";
     inactiveBackgroundColor := Some "#ffffff";
     pressColor := Some "#cccccc";
     pressOpacity := Some 0.5%Q;
     labelStyle := VUndefined;
     style := VUndefined;
     allowFontScaling := Some true;
     accessibilityLabel := Some "Go home";
     testID := Some "home-item";
     others := <["collapsable" := VBool true]>
               (<["nativeID" := VStr "row"]> ∅) |}.

(** Props for [LinkPressable] with a route, an [href], the secondary
    handlers and an [action] of the caller's own. *)
Definition handlerProps : gmap string Val :=
  <["route" := VObj (<["name" := VStr "Home"]>
                     (<["key" := VStr "home-1"]>
                     (<["params" := VObj (<["tab" := VStr "news"]> ∅)]> ∅)))]>
  (<["href" := VStr "/home"]>
  (<["children" := VStr "Home"]>
  (<["style" := styles.wrapper]>
  (<["onLongPress" := callback "onLongPress"]>
  (<["onPressIn" := VNull]>
  (<["action" := VStr "mine"]>
  (<["testID" := VStr "t"]>
  (<["onPress" := callback "onPress"]> ∅)))))))).

(** ** Lemmas on prop objects *)

Lemma lookup_omit_picked (picked : list string) (o : gmap string Val) (k : string) :
  k ∈ picked -> omit picked o !! k = None.
Proof.
  unfold omit. induction picked as [|k' picked IH]; intros Hin.
  - inversion Hin.
  - simpl. destruct (decide (k' = k)) as [->|Hne].
    + apply lookup_delete_eq.
    + rewrite lookup_delete_ne by done. apply IH.
      inversion Hin; subst; [congruence | assumption].
Qed.

Lemma lookup_omit_other (picked : list string) (o : gmap string Val) (k : string) :
  k ∉ picked -> omit picked o !! k = o !! k.
Proof.
  unfold omit. induction picked as [|k' picked IH]; intros Hout; [done|].
  simpl. apply not_elem_of_cons in Hout as [Hne Hout].
  rewrite lookup_delete_ne by done. by apply IH.
Qed.

(** [onPress] is picked by name, so it is never a key of [rest]. *)
Lemma rest_lacks_onPress (props : gmap string Val) :
  has_key "onPress" (omit LinkPressable_picked props) = false.
Proof.
  unfold has_key. rewrite lookup_omit_picked; [done|].
  unfold LinkPressable_picked. set_solver.
Qed.

Lemma rest_lacks_accessibilityState (props : gmap string Val) :
  omit LinkPressable_picked props !! "accessibilityState" = None.
Proof.
  apply lookup_omit_picked. unfold LinkPressable_picked. set_solver.
Qed.

(** Rewriting a lookup in a prop object that was built key by key. *)
Ltac lookup_props :=
  repeat first
    [ rewrite lookup_insert_eq
    | rewrite lookup_insert_ne by discriminate
    | rewrite lookup_empty ].

Lemma prop_insert_eq (o : gmap string Val) (k : string) (v : Val) :
  prop (<[k := v]> o) k = v.
Proof. unfold prop. by rewrite lookup_insert_eq. Qed.

Lemma prop_insert_ne (o : gmap string Val) (k k' : string) (v : Val) :
  k <> k' -> prop (<[k := v]> o) k' = prop o k'.
Proof. intros Hne. unfold prop. by rewrite lookup_insert_ne. Qed.

Lemma member_elem (type : Component) (props : gmap string Val) (k : string) :
  member (VElem type props) k = prop props k.
Proof. reflexivity. Qed.

Lemma member_obj (fields : gmap string Val) (k : string) :
  member (VObj fields) k = prop fields k.
Proof. reflexivity. Qed.

Lemma index_arr_0 (v : Val) (items : list Val) :
  index (VArr (v :: items)) 0 = v.
Proof. reflexivity. Qed.

Lemma index_arr_S (v : Val) (items : list Val) (i : nat) :
  index (VArr (v :: items)) (S i) = index (VArr items) i.
Proof. reflexivity. Qed.

(** Reading a path of members and indices in a value built by the
    component. *)
Ltac read_path :=
  repeat first
    [ rewrite member_elem
    | rewrite member_obj
    | rewrite index_arr_0
    | rewrite index_arr_S
    | rewrite prop_insert_eq
    | rewrite prop_insert_ne by discriminate ].

Section Dispatch.
Context {host : Host}.

Lemma LinkPressable_onPress_web (props : gmap string Val) :
  Platform_OS = "web" ->
  member (LinkPressable props) "onPress"
  = VFun (Link_onPress (omit LinkPressable_picked props) (prop props "onPress")).
Proof.
  intros Hos. unfold LinkPressable. rewrite Hos, String.eqb_refl.
  by read_path.
Qed.

Lemma LinkPressable_onPress_native (props : gmap string Val) :
  Platform_OS <> "web" ->
  member (LinkPressable props) "onPress" = prop props "onPress".
Proof.
  intros Hos. unfold LinkPressable.
  apply String.eqb_neq in Hos. rewrite Hos.
  by read_path.
Qed.

(** The interceptor, case by case. *)
Lemma Link_onPress_engaged rest onPress e :
  instanceofMouseEvent e = true ->
  metaKey e || altKey e || ctrlKey e || shiftKey e = false ->
  (button e = ButtonUndefined \/ button e = ButtonNull \/ button e = ButtonNum 0) ->
  Link_onPress rest onPress e
  = PreventDefault ::
      (if has_key "onPress" rest then optional_call onPress e else []).
Proof.
  intros Hm Hk Hb. unfold Link_onPress. rewrite Hm, Hk.
  by destruct Hb as [-> | [-> | ->]].
Qed.

Lemma Link_onPress_passes rest onPress e :
  instanceofMouseEvent e = false
  \/ metaKey e || altKey e || ctrlKey e || shiftKey e = true
  \/ (exists n, button e = ButtonNum n /\ n <> 0%Z) ->
  Link_onPress rest onPress e = [].
Proof.
  unfold Link_onPress. intros [-> | [-> | (n & -> & Hn)]].
  - done.
  - by rewrite andb_false_r.
  - apply Z.eqb_neq in Hn. rewrite Hn. by rewrite andb_false_r.
Qed.

Lemma press_link_engaged props e :
  Platform_OS = "web" ->
  instanceofMouseEvent e = true ->
  metaKey e || altKey e || ctrlKey e || shiftKey e = false ->
  (button e = ButtonUndefined \/ button e = ButtonNull \/ button e = ButtonNum 0) ->
  press (LinkPressable props) e = [PreventDefault].
Proof.
  intros Hos Hm Hk Hb. unfold press.
  rewrite LinkPressable_onPress_web by done. unfold optional_call at 1.
  rewrite Link_onPress_engaged by done.
  by rewrite rest_lacks_onPress.
Qed.
End Dispatch.

(** ** Press dispatch *)

Section PressDispatch.
Context {host : Host}.

Lemma pressable_DrawerItem (p : Props) :
  pressable (DrawerItem p) = LinkPressable (Item.pressableProps p).
Proof.
  unfold pressable, DrawerItem. by read_path.
Qed.

(** C1, as the code behaves: in link mode a click that is a MouseEvent,
    with no modifier key held and the primary button, has its default
    navigation suppressed once, but the caller's [onPress] is not
    invoked: the interceptor calls it only when [onPress] is a key of
    [rest], and [rest] never has that key. *)
Theorem C1_link_click_suppresses_default_without_onPress
    (props : gmap string Val) (name : string) (e : Event) :
  Platform_OS = "web" ->
  prop props "onPress" = callback name ->
  instanceofMouseEvent e = true ->
  metaKey e || altKey e || ctrlKey e || shiftKey e = false ->
  button e = ButtonNum 0 ->
  preventions (press (LinkPressable props) e) = 1
  /\ invocations name (press (LinkPressable props) e) = 0.
Proof.
  intros Hos _ Hm Hk Hb.
  rewrite press_link_engaged by auto.
  split; reflexivity.
Qed.

(** C2: in link mode a click with a modifier key (meta, alt, ctrl or
    shift) held, or with a button other than the primary one, is left
    alone: no [preventDefault], no call of the activation callback. *)
Theorem C2_link_click_passes_through
    (props : gmap string Val) (e : Event) :
  Platform_OS = "web" ->
  (metaKey e = true \/ altKey e = true \/ ctrlKey e = true
   \/ shiftKey e = true
   \/ exists n, button e = ButtonNum n /\ n <> 0%Z) ->
  press (LinkPressable props) e = [].
Proof.
  intros Hos Hcase. unfold press.
  rewrite LinkPressable_onPress_web by done. unfold optional_call.
  apply Link_onPress_passes. right.
  destruct Hcase as [H | [H | [H | [H | H]]]]; [left .. | by right];
    rewrite H; by rewrite ?orb_true_r.
Qed.


(** C9: in link mode a MouseEvent whose [button] is [null] or
    [undefined], with no modifier key held, is intercepted like the same
    event with [button] equal to 0: default navigation is suppressed once
    in both, and every callback is invoked as often in one as in the
    other. *)
Theorem C9_missing_button_counts_as_primary
    (props : gmap string Val) (e : Event) :
  Platform_OS = "web" ->
  instanceofMouseEvent e = true ->
  metaKey e || altKey e || ctrlKey e || shiftKey e = false ->
  (button e = ButtonNull \/ button e = ButtonUndefined) ->
  preventions (press (LinkPressable props) e) = 1
  /\ preventions (press (LinkPressable props) (with_button (ButtonNum 0) e)) = 1
  /\ forall f,
       invocations f (press (LinkPressable props) e)
       = invocations f (press (LinkPressable props) (with_button (ButtonNum 0) e)).
Proof.
  intros Hos Hm Hk Hb.
  rewrite !press_link_engaged; auto.
  destruct Hb; auto.
Qed.

(** C10: [DrawerItem] hands [accessibilityState = {selected: focused}] to
    [LinkPressable], which picks it out of its props and passes it on to
    neither the [Link] nor the [PlatformPressable]. *)
Theorem C10_accessibilityState_not_forwarded
    (p : Props) (props : gmap string Val) :
  Item.pressableProps p !! "accessibilityState"
  = Some (VObj (<["selected" := VBool (Item.focused p)]> ∅))
  /\ (exists ps,
        LinkPressable props
        = VElem (if String.eqb Platform_OS "web"
                 then Link else PlatformPressable) ps
        /\ ps !! "accessibilityState" = None)
  /\ member (pressable (DrawerItem p)) "accessibilityState" = VUndefined.
Proof.
  assert (forall q : gmap string Val, exists ps,
        LinkPressable q
        = VElem (if String.eqb Platform_OS "web"
                 then Link else PlatformPressable) ps
        /\ ps !! "accessibilityState" = None) as Hdrop.
  { intros q. unfold LinkPressable.
    destruct (String.eqb Platform_OS "web");
      (eexists; split; [reflexivity|]);
      lookup_props; apply rest_lacks_accessibilityState. }
  split; [|split].
  - unfold Item.pressableProps. by lookup_props.
  - apply Hdrop.
  - rewrite pressable_DrawerItem.
    destruct (Hdrop (Item.pressableProps p)) as (ps & -> & Hnone).
    rewrite member_elem. unfold prop. by rewrite Hnone.
Qed.
End PressDispatch.

(** ** Presentation *)

Section Presentation.
Context {host : Host}.

Lemma content_LinkPressable (props : gmap string Val) :
  content (LinkPressable props) = prop props "children".
Proof.
  unfold LinkPressable.
  destruct (String.eqb Platform_OS "web"); unfold content; by read_path.
Qed.

Lemma regionStyle_LinkPressable (props : gmap string Val) :
  regionStyle (LinkPressable props) = prop props "style".
Proof.
  unfold LinkPressable.
  destruct (String.eqb Platform_OS "web"); unfold regionStyle; by read_path.
Qed.

Lemma iconSlot_DrawerItem (p : Props) :
  iconSlot (DrawerItem p) = Item.iconNode p.
Proof.
  unfold iconSlot. rewrite pressable_DrawerItem, content_LinkPressable.
  unfold Item.pressableProps. by read_path.
Qed.

Lemma labelWrapper_DrawerItem (p : Props) :
  labelWrapper (DrawerItem p)
  = VElem View
      (<["children" := Item.labelNode p]>
       (<["style" :=
            VArr [styles.label;
                  VObj (<["marginLeft" :=
                            VNum (if truthy (Item.iconNode p) then 32 else 0)]>
                        (<["marginVertical" := VNum 5]> ∅))]]> ∅)).
Proof.
  unfold labelWrapper. rewrite pressable_DrawerItem, content_LinkPressable.
  unfold Item.pressableProps. by read_path.
Qed.

Lemma labelChild_DrawerItem (p : Props) :
  labelChild (DrawerItem p) = Item.labelNode p.
Proof.
  unfold labelChild. rewrite labelWrapper_DrawerItem. by read_path.
Qed.
End Presentation.

Section Colors.
Context {host : Host}.

Lemma focused_true_iff (p : Props) :
  Item.focused p = true <-> focused p = Some true.
Proof.
  unfold Item.focused. destruct (focused p) as [[]|]; simpl; split; congruence.
Qed.

Lemma containerEntry_backgroundColor (p : Props) :
  containerEntry (DrawerItem p) "backgroundColor"
  = VStr (Item.backgroundColor p).
Proof.
  unfold containerEntry, DrawerItem. by read_path.
Qed.

Lemma foreground_DrawerItem (p : Props) :
  foregroundIs (DrawerItem p) p (Item.focused p) (Item.color p).
Proof.
  unfold foregroundIs. split; [apply iconSlot_DrawerItem|].
  rewrite labelChild_DrawerItem. unfold Item.labelNode.
  destruct (label p) as [s|f]; [|reflexivity].
  by read_path.
Qed.

(** C3: the foreground colour handed to the icon and to the label, and
    the background colour of the container, are the active pair when
    [focused] is true and the inactive pair otherwise ([focused] left
    out counts as false); each is one of the two resolved colours,
    unchanged. A resolved colour is the caller's override whenever there
    is one, so for every combination of the four overrides the row shows
    the override of the selected pair as it was given. *)
Theorem C3_active_pair_iff_focused (p : Props) :
  let fg := if Item.focused p
            then Item.activeTintColor p else Item.inactiveTintColor p in
  let bg := if Item.focused p
            then Item.activeBackgroundColor p
            else Item.inactiveBackgroundColor p in
  (Item.focused p = true <-> focused p = Some true)
  /\ containerEntry (DrawerItem p) "backgroundColor" = VStr bg
  /\ iconSlot (DrawerItem p)
     = match icon p with
       | Some f => f {| icon_focused := Item.focused p;
                        icon_size := 24; icon_color := fg |}
       | None => VNull
       end
  /\ match label p with
     | LabelString _ =>
         member (index (member (labelChild (DrawerItem p)) "style") 0) "color"
         = VStr fg
     | LabelFunction f =>
         labelChild (DrawerItem p)
         = f {| label_focused := Item.focused p; label_color := fg |}
     end
  /\ (forall c, activeTintColor p = Some c -> Item.activeTintColor p = c)
  /\ (forall c, inactiveTintColor p = Some c -> Item.inactiveTintColor p = c)
  /\ (forall c, activeBackgroundColor p = Some c ->
         Item.activeBackgroundColor p = c)
  /\ (forall c, inactiveBackgroundColor p = Some c ->
         Item.inactiveBackgroundColor p = c)
  /\ (forall c, focused p = Some true -> activeTintColor p = Some c ->
         foregroundIs (DrawerItem p) p true c)
  /\ (forall c, focused p <> Some true -> inactiveTintColor p = Some c ->
         foregroundIs (DrawerItem p) p false c)
  /\ (forall c, focused p = Some true -> activeBackgroundColor p = Some c ->
         containerEntry (DrawerItem p) "backgroundColor" = VStr c)
  /\ (forall c, focused p <> Some true -> inactiveBackgroundColor p = Some c ->
         containerEntry (DrawerItem p) "backgroundColor" = VStr c).
Proof.
  intros fg bg.
  assert (focused p <> Some true -> Item.focused p = false) as Hnot.
  { intros Hf. destruct (Item.focused p) eqn:Hfoc; [|done].
    by apply focused_true_iff in Hfoc. }
  pose proof (foreground_DrawerItem p) as Hfg.
  pose proof (containerEntry_backgroundColor p) as Hbg.
  unfold Item.color in Hfg. unfold Item.backgroundColor in Hbg.
  split; [apply focused_true_iff|].
  split; [exact Hbg|].
  split; [apply Hfg|].
  split; [apply Hfg|].
  split; [intros c Hc; unfold Item.activeTintColor; by rewrite Hc|].
  split; [intros c Hc; unfold Item.inactiveTintColor; by rewrite Hc|].
  split; [intros c Hc; unfold Item.activeBackgroundColor; by rewrite Hc|].
  split; [intros c Hc; unfold Item.inactiveBackgroundColor; by rewrite Hc|].
  split; [|split; [|split]].
  - intros c Hf Hc. apply focused_true_iff in Hf. rewrite Hf in Hfg.
    unfold Item.activeTintColor in Hfg. by rewrite Hc in Hfg.
  - intros c Hf Hc. rewrite (Hnot Hf) in Hfg.
    unfold Item.inactiveTintColor in Hfg. by rewrite Hc in Hfg.
  - intros c Hf Hc. apply focused_true_iff in Hf. rewrite Hf in Hbg.
    unfold Item.activeBackgroundColor in Hbg. by rewrite Hc in Hbg.
  - intros c Hf Hc. rewrite (Hnot Hf) in Hbg.
    unfold Item.inactiveBackgroundColor in Hbg. by rewrite Hc in Hbg.
Qed.

(** C4: a colour override that is left out gets its default:
    [activeTintColor] the theme's [colors.primary]; [inactiveTintColor]
    the theme's [colors.text] at alpha 0.68; [activeBackgroundColor] the
    resolved [activeTintColor], the caller's override when there is one,
    at alpha 0.12; [inactiveBackgroundColor] ['transparent']. *)
Theorem C4_color_defaults (p : Props) :
  (activeTintColor p = None ->
     Item.activeTintColor p = primary (colors useTheme))
  /\ (inactiveTintColor p = None ->
        Item.inactiveTintColor p = withAlpha (text (colors useTheme)) 0.68)
  /\ (activeBackgroundColor p = None ->
        Item.activeBackgroundColor p = withAlpha (Item.activeTintColor p) 0.12
        /\ (forall c, activeTintColor p = Some c ->
              Item.activeBackgroundColor p = withAlpha c 0.12)
        /\ (focused p = Some true ->
              containerEntry (DrawerItem p) "backgroundColor"
              = VStr (withAlpha (Item.activeTintColor p) 0.12)))
  /\ (inactiveBackgroundColor p = None ->
        Item.inactiveBackgroundColor p = "transparent"
        /\ (focused p <> Some true ->
              containerEntry (DrawerItem p) "backgroundColor"
              = VStr "transparent")).
Proof.
  split; [|split; [|split]].
  - intros H. unfold Item.activeTintColor. by rewrite H.
  - intros H. unfold Item.inactiveTintColor. by rewrite H.
  - intros H.
    assert (Item.activeBackgroundColor p
            = withAlpha (Item.activeTintColor p) 0.12) as Hbg.
    { unfold Item.activeBackgroundColor. by rewrite H. }
    split; [done|]. split.
    + intros c Hc. rewrite Hbg. unfold Item.activeTintColor. by rewrite Hc.
    + intros Hf. rewrite containerEntry_backgroundColor.
      unfold Item.backgroundColor.
      apply focused_true_iff in Hf. by rewrite Hf, Hbg.
  - intros H.
    assert (Item.inactiveBackgroundColor p = "transparent") as Hbg.
    { unfold Item.inactiveBackgroundColor. by rewrite H. }
    split; [done|].
    intros Hf. rewrite containerEntry_backgroundColor.
    unfold Item.backgroundColor.
    destruct (Item.focused p) eqn:Hfoc; [|by rewrite Hbg].
    by apply focused_true_iff in Hfoc.
Qed.
End Colors.

Section Layout.
Context {host : Host}.

(** C6: the corner radius is the [borderRadius] of the caller's
    flattened style, 4 when that has none, and this one value is the
    [borderRadius] written into the style of the container and into the
    style of the pressable region. *)
Theorem C6_one_radius_for_container_and_region (p : Props) :
  let flat := StyleSheet_flatten
                (if truthy (style p) then style p else VObj ∅) in
  containerEntry (DrawerItem p) "borderRadius"
  = regionEntry (DrawerItem p) "borderRadius"
  /\ regionEntry (DrawerItem p) "borderRadius" = Item.borderRadius p
  /\ Item.borderRadius p
     = match flat !! "borderRadius" with
       | Some VUndefined | None => VNum 4
       | Some r => r
       end.
Proof.
  intros flat.
  assert (regionEntry (DrawerItem p) "borderRadius" = Item.borderRadius p)
    as Hregion.
  { unfold regionEntry.
    rewrite pressable_DrawerItem, regionStyle_LinkPressable.
    unfold Item.pressableProps. by read_path. }
  split; [|split; [done|reflexivity]].
  rewrite Hregion.
  unfold containerEntry, DrawerItem. by read_path.
Qed.

(** C7: the left margin of the label wrapper is 32 when an [icon]
    render function is given and produces a node, and 0 when there is no
    [icon] prop. *)
Theorem C7_label_margin_follows_icon (p : Props) :
  (icon p = None ->
     labelWrapperEntry (DrawerItem p) "marginLeft" = VNum 0)
  /\ (forall f,
        icon p = Some f ->
        truthy (f {| icon_focused := Item.focused p; icon_size := 24;
                     icon_color := Item.color p |}) = true ->
        labelWrapperEntry (DrawerItem p) "marginLeft" = VNum 32
        /\ iconSlot (DrawerItem p)
           = f {| icon_focused := Item.focused p; icon_size := 24;
                  icon_color := Item.color p |}).
Proof.
  assert (labelWrapperEntry (DrawerItem p) "marginLeft"
          = VNum (if truthy (Item.iconNode p) then 32 else 0)) as Hmargin.
  { unfold labelWrapperEntry. rewrite labelWrapper_DrawerItem.
    by read_path. }
  split.
  - intros Hicon. rewrite Hmargin. unfold Item.iconNode. by rewrite Hicon.
  - intros f Hicon Hnode. rewrite Hmargin, iconSlot_DrawerItem.
    unfold Item.iconNode. rewrite Hicon. by rewrite Hnode.
Qed.

(** C8: a string label is rendered as a [Text] with [numberOfLines] 1,
    the [allowFontScaling] flag, and the style array made of the
    resolved foreground colour, the theme's [fonts.medium] and
    [labelStyle]; a function label is called with [{color, focused}] and
    its result is the child of the label wrapper as it is. *)
Theorem C8_label_rendering (p : Props) :
  match label p with
  | LabelString s =>
      exists ps,
        labelChild (DrawerItem p) = VElem Text ps
        /\ ps !! "numberOfLines" = Some (VNum 1)
        /\ ps !! "allowFontScaling" = Some (opt_bool (allowFontScaling p))
        /\ ps !! "style"
           = Some (VArr [VObj (<["color" := VStr (Item.color p)]> ∅);
                         medium (fonts useTheme);
                         labelStyle p])
        /\ ps !! "children" = Some (VStr s)
        /\ dom ps = {["numberOfLines"; "allowFontScaling"; "style"; "children"]}
  | LabelFunction f =>
      labelChild (DrawerItem p)
      = f {| label_focused := Item.focused p; label_color := Item.color p |}
  end.
Proof.
  rewrite labelChild_DrawerItem. unfold Item.labelNode.
  destruct (label p) as [s|f]; [|reflexivity].
  eexists. split; [reflexivity|].
  repeat split; by lookup_props.
Qed.
End Layout.

(** ** The theorems at concrete rows *)

(** A plain left click on the row rendered for the web: the default is
    prevented and [onPress] is not called. *)
Example web_row_click :
  press (pressable (@DrawerItem webHost exampleProps)) click = [PreventDefault].
Proof. vm_compute. reflexivity. Qed.

(** The same press on a native host reaches [onPress]. *)
Example native_row_press :
  press (pressable (@DrawerItem nativeHost exampleProps)) click
  = [Invoke "onPress" click].
Proof. vm_compute. reflexivity. Qed.

Lemma C1_witness :
  preventions
    (press (@LinkPressable webHost (@Item.pressableProps webHost exampleProps))
           click) = 1
  /\ invocations "onPress"
       (press (@LinkPressable webHost (@Item.pressableProps webHost exampleProps))
              click) = 0.
Proof.
  apply (@C1_link_click_suppresses_default_without_onPress webHost
           (@Item.pressableProps webHost exampleProps) "onPress" click);
    vm_compute; reflexivity.
Defined.

Lemma C2_witness :
  press (@LinkPressable webHost (@Item.pressableProps webHost exampleProps))
        shiftClick = [].
Proof.
  apply (@C2_link_click_passes_through webHost
           (@Item.pressableProps webHost exampleProps) shiftClick).
  - vm_compute; reflexivity.
  - right; right; right; left. reflexivity.
Defined.


Lemma C9_witness :
  preventions
    (press (@LinkPressable webHost (@Item.pressableProps webHost exampleProps))
           noButtonClick) = 1.
Proof.
  apply (@C9_missing_button_counts_as_primary webHost
           (@Item.pressableProps webHost exampleProps) noButtonClick).
  - vm_compute; reflexivity.
  - reflexivity.
  - reflexivity.
  - left. reflexivity.
Defined.

Lemma C4_witness :
  @Item.activeTintColor webHost exampleProps = "#007aff"
  /\ @Item.inactiveTintColor webHost exampleProps
     = @withAlpha webHost "#000000" 0.68
  /\ @Item.activeBackgroundColor webHost focusedProps
     = @withAlpha webHost "#112233" 0.12
  /\ Item.inactiveBackgroundColor exampleProps = "transparent".
Proof.
  destruct (@C4_color_defaults webHost exampleProps) as (Hat & Hit & _ & Hib).
  destruct (@C4_color_defaults webHost focusedProps) as (_ & _ & Hab & _).
  split; [apply Hat; reflexivity|].
  split; [apply Hit; reflexivity|].
  split; [|apply Hib; reflexivity].
  destruct (Hab eq_refl) as (_ & Hover & _).
  apply Hover. reflexivity.
Defined.

Lemma C7_witness :
  labelWrapperEntry (@DrawerItem webHost exampleProps) "marginLeft" = VNum 0
  /\ labelWrapperEntry (@DrawerItem webHost focusedProps) "marginLeft" = VNum 32.
Proof.
  split.
  - apply (@C7_label_margin_follows_icon webHost exampleProps). reflexivity.
  - destruct (@C7_label_margin_follows_icon webHost focusedProps) as (_ & Hicon).
    destruct (Hicon _ eq_refl) as (Hmargin & _); [reflexivity|].
    exact Hmargin.
Defined.

(** ** What [LinkPressable] passes on *)

Lemma picked_ne (k k' : string) :
  k ∉ LinkPressable_picked -> k' ∈ LinkPressable_picked -> k' <> k.
Proof. intros Hout Hin ->. done. Qed.

(** A key outside the picked ones differs from each attribute that is
    written by name. *)
Ltac not_picked H :=
  first [ discriminate
        | congruence
        | apply (picked_ne _ _ H); unfold LinkPressable_picked; compute_done ].

Lemma plainPrimaryClick_iff (e : Event) :
  plainPrimaryClick e
  <-> instanceofMouseEvent e
      && negb (metaKey e || altKey e || ctrlKey e || shiftKey e)
      && match button e with
         | ButtonUndefined | ButtonNull => true
         | ButtonNum n => Z.eqb n 0
         end = true.
Proof.
  unfold plainPrimaryClick. destruct e as [m k1 k2 k3 k4 b]; simpl.
  rewrite !andb_true_iff, negb_true_iff, !orb_false_iff.
  split.
  - intros (-> & -> & -> & -> & -> & Hb). repeat split.
    destruct Hb as [-> | [-> | ->]]; done.
  - intros ((-> & ((-> & ->) & ->) & ->) & Hb). repeat split.
    destruct b as [| |n]; [by left | by right; left |].
    apply Z.eqb_eq in Hb as ->. by right; right.
Qed.

Section Forwarding.
Context {host : Host}.

Lemma elemProps_Link_unpicked (props : gmap string Val) (k : string) :
  Platform_OS = "web" ->
  k ∉ LinkPressable_picked ->
  k <> "action" ->
  elemProps (LinkPressable props) !! k = props !! k.
Proof.
  intros Hos Hk Haction. unfold LinkPressable.
  rewrite Hos, String.eqb_refl. unfold elemProps.
  do 8 (rewrite lookup_insert_ne by not_picked Hk).
  by apply (lookup_omit_other LinkPressable_picked).
Qed.

Lemma elemProps_PlatformPressable_unpicked
    (props : gmap string Val) (k : string) :
  Platform_OS <> "web" ->
  k ∉ LinkPressable_picked ->
  elemProps (LinkPressable props) !! k = props !! k.
Proof.
  intros Hos Hk. unfold LinkPressable.
  apply String.eqb_neq in Hos. rewrite Hos. unfold elemProps.
  do 3 (rewrite lookup_insert_ne by not_picked Hk).
  by apply (lookup_omit_other LinkPressable_picked).
Qed.

Lemma elemProps_Link_accessibilityRole (props : gmap string Val) :
  Platform_OS = "web" ->
  elemProps (LinkPressable props) !! "accessibilityRole" = None.
Proof.
  intros Hos. unfold LinkPressable.
  rewrite Hos, String.eqb_refl. unfold elemProps. lookup_props.
  apply (lookup_omit_picked LinkPressable_picked).
  unfold LinkPressable_picked. set_solver.
Qed.

Lemma elemProps_PlatformPressable_accessibilityRole (props : gmap string Val) :
  Platform_OS <> "web" ->
  elemProps (LinkPressable props) !! "accessibilityRole"
  = Some (prop props "accessibilityRole").
Proof.
  intros Hos. unfold LinkPressable.
  apply String.eqb_neq in Hos. rewrite Hos. unfold elemProps.
  by lookup_props.
Qed.

(** X1: in link mode the interceptor acts on the plain primary clicks and on
    nothing else: for a MouseEvent with no modifier key and with [button]
    0, [null] or [undefined] the only effect is one [preventDefault]; for
    every other event, one that is not a MouseEvent included, there is no
    effect at all. *)
Theorem link_interception_exactly_plain_primary_clicks
    (props : gmap string Val) (e : Event) :
  Platform_OS = "web" ->
  (plainPrimaryClick e -> press (LinkPressable props) e = [PreventDefault])
  /\ (~ plainPrimaryClick e -> press (LinkPressable props) e = [])
  /\ (preventions (press (LinkPressable props) e) = 1 <-> plainPrimaryClick e).
Proof.
  intros Hos. unfold press.
  rewrite LinkPressable_onPress_web by done.
  unfold optional_call, Link_onPress. rewrite rest_lacks_onPress.
  rewrite plainPrimaryClick_iff.
  destruct (instanceofMouseEvent e
            && negb (metaKey e || altKey e || ctrlKey e || shiftKey e)
            && match button e with
               | ButtonUndefined | ButtonNull => true
               | ButtonNum n => Z.eqb n 0
               end); simpl.
  - repeat split; done.
  - repeat split; done.
Qed.

(** X2: on both platforms a prop that [LinkPressable] does not pick by name
    arrives on the rendered element unchanged, present or absent as the
    caller left it; on the web [action] is the exception. *)
Theorem unpicked_props_are_passed_on (props : gmap string Val) (k : string) :
  k ∉ LinkPressable_picked ->
  (Platform_OS = "web" -> k <> "action") ->
  elemProps (LinkPressable props) !! k = props !! k.
Proof.
  intros Hk Haction.
  destruct (String.eqb_spec Platform_OS "web") as [Hos|Hos].
  - by apply elemProps_Link_unpicked; [| |apply Haction].
  - by apply elemProps_PlatformPressable_unpicked.
Qed.

(** X3: in gesture mode the [PlatformPressable] is given none of [route],
    [href], [style], [onLongPress], [onPressIn] and [onPressOut], whatever
    the caller passed for them. *)
Theorem gesture_mode_drops_secondary_handlers
    (props : gmap string Val) (k : string) :
  Platform_OS <> "web" ->
  k ∈ ["route"; "href"; "style"; "onLongPress"; "onPressIn"; "onPressOut"] ->
  elemProps (LinkPressable props) !! k = None.
Proof.
  intros Hos Hk. unfold LinkPressable.
  apply String.eqb_neq in Hos. rewrite Hos. simpl.
  repeat (apply elem_of_cons in Hk as [-> | Hk]);
    [ .. | by apply elem_of_nil in Hk ];
    rewrite !lookup_insert_ne by discriminate;
    apply (lookup_omit_picked LinkPressable_picked);
    unfold LinkPressable_picked; set_solver.
Qed.

(** X4: in link mode each of [onLongPress], [onPressIn] and [onPressOut] goes
    to the [Link] with [null] turned into [undefined]: the [Link] never
    sees [null], and a handler function is passed as it is. *)
Theorem link_mode_normalises_secondary_handlers
    (props : gmap string Val) (k : string) :
  Platform_OS = "web" ->
  k ∈ ["onLongPress"; "onPressIn"; "onPressOut"] ->
  member (LinkPressable props) k <> VNull
  /\ (prop props k = VNull -> member (LinkPressable props) k = VUndefined)
  /\ (forall h, prop props k = VFun h -> member (LinkPressable props) k = VFun h).
Proof.
  intros Hos Hk.
  assert (member (LinkPressable props) k = nullish_undefined (prop props k))
    as ->.
  { unfold LinkPressable. rewrite Hos, String.eqb_refl.
    apply elem_of_cons in Hk as [-> | Hk]; [by read_path|].
    apply elem_of_cons in Hk as [-> | Hk]; [by read_path|].
    apply list_elem_of_singleton in Hk as ->. by read_path. }
  split; [by destruct (prop props k)|].
  split; [by intros ->|by intros h ->].
Qed.

(** X5: in link mode the [Link]'s [action] is always the navigate action for
    the route's name and params, even when the caller passes an [action]
    prop of its own, and its [href] is the [href] prop. *)
Theorem link_target_comes_from_route (props : gmap string Val) :
  Platform_OS = "web" ->
  member (LinkPressable props) "action"
  = CommonActions_navigate (member (prop props "route") "name")
                           (member (prop props "route") "params")
  /\ member (LinkPressable props) "href" = prop props "href".
Proof.
  intros Hos. unfold LinkPressable. rewrite Hos, String.eqb_refl.
  split; by read_path.
Qed.
End Forwarding.

(** ** What a row passes to its pressable and to its container *)

Section Row.
Context {host : Host}.

Lemma pressable_row_unpicked (p : Props) (k : string) :
  k ∉ LinkPressable_picked ->
  k <> "action" ->
  elemProps (pressable (DrawerItem p)) !! k = Item.pressableProps p !! k.
Proof.
  intros Hk Haction. rewrite pressable_DrawerItem.
  destruct (String.eqb_spec Platform_OS "web") as [Hos|Hos].
  - by apply elemProps_Link_unpicked.
  - by apply elemProps_PlatformPressable_unpicked.
Qed.

(** X6: the row's [testID], [accessibilityLabel], [pressColor] and
    [pressOpacity] are props of the pressable element on every platform:
    the press tuning is put on the web [Link] as well. *)
Theorem row_labels_and_press_tuning_reach_the_pressable (p : Props) :
  elemProps (pressable (DrawerItem p)) !! "testID"
  = Some (opt_str (testID p))
  /\ elemProps (pressable (DrawerItem p)) !! "accessibilityLabel"
     = Some (opt_str (accessibilityLabel p))
  /\ elemProps (pressable (DrawerItem p)) !! "pressColor"
     = Some (opt_str (pressColor p))
  /\ elemProps (pressable (DrawerItem p)) !! "pressOpacity"
     = Some (opt_num (pressOpacity p)).
Proof.
  repeat split;
    (rewrite pressable_row_unpicked;
     [ unfold Item.pressableProps; by lookup_props
     | unfold LinkPressable_picked; compute_done
     | discriminate ]).
Qed.

(** X7: the role [button] that the row asks for is a prop of the
    [PlatformPressable] in gesture mode and is not a prop of the [Link] in
    link mode. *)
Theorem accessibilityRole_reaches_gesture_mode_only (p : Props) :
  (Platform_OS = "web" ->
     elemProps (pressable (DrawerItem p)) !! "accessibilityRole" = None)
  /\ (Platform_OS <> "web" ->
        elemProps (pressable (DrawerItem p)) !! "accessibilityRole"
        = Some (VStr "button")).
Proof.
  rewrite pressable_DrawerItem. split; intros Hos.
  - by apply elemProps_Link_accessibilityRole.
  - rewrite elemProps_PlatformPressable_accessibilityRole by done.
    unfold Item.pressableProps. by read_path.
Qed.

(** X8: in gesture mode a press on the row calls the row's [onPress] exactly
    once, whatever the event. *)
Theorem native_row_press_calls_onPress_once
    (p : Props) (name : string) (e : Event) :
  Platform_OS <> "web" ->
  onPress p = callback name ->
  press (pressable (DrawerItem p)) e = [Invoke name e].
Proof.
  intros Hos Hcb. unfold press.
  rewrite pressable_DrawerItem, LinkPressable_onPress_native by done.
  unfold Item.pressableProps. read_path. by rewrite Hcb.
Qed.

(** X9: an [icon] function whose result renders nothing ([null], [false],
    [undefined], 0 or the empty string) leaves the label's left margin at
    0, as if there were no icon. *)
Theorem icon_rendering_nothing_keeps_margin_zero
    (p : Props) (f : IconProps -> Val) :
  icon p = Some f ->
  truthy (f {| icon_focused := Item.focused p; icon_size := 24;
               icon_color := Item.color p |}) = false ->
  labelWrapperEntry (DrawerItem p) "marginLeft" = VNum 0
  /\ iconSlot (DrawerItem p)
     = f {| icon_focused := Item.focused p; icon_size := 24;
            icon_color := Item.color p |}.
Proof.
  intros Hicon Hnode. split.
  - unfold labelWrapperEntry. rewrite labelWrapper_DrawerItem. read_path.
    unfold Item.iconNode. rewrite Hicon. by rewrite Hnode.
  - rewrite iconSlot_DrawerItem. unfold Item.iconNode. by rewrite Hicon.
Qed.

(** X10: the container takes the caller's further props as they are;
    [collapsable] is false unless the caller sets it; [style] is always
    the array built by the row, whatever the further props hold. *)
Theorem container_takes_further_props (p : Props) (k : string) :
  (k <> "style" -> k <> "children" ->
     elemProps (DrawerItem p) !! k
     = match others p !! k with
       | Some v => Some v
       | None => if String.eqb k "collapsable" then Some (VBool false) else None
       end)
  /\ elemProps (DrawerItem p) !! "style"
     = Some (VArr [styles.container;
                   VObj (<["borderRadius" := Item.borderRadius p]>
                         (<["backgroundColor" :=
                              VStr (Item.backgroundColor p)]> ∅));
                   style p]).
Proof.
  unfold DrawerItem, elemProps. split.
  - intros Hstyle Hchildren.
    rewrite !lookup_insert_ne by done. rewrite lookup_union.
    destruct (others p !! k) as [v|]; simpl.
    + by destruct (_ !! k).
    + destruct (String.eqb_spec k "collapsable") as [->|Hne].
      * by rewrite lookup_insert_eq.
      * rewrite lookup_insert_ne by done. by rewrite lookup_empty.
  - by lookup_props.
Qed.
End Row.

(** ** What a row does not depend on *)

(** X11: the pair of colours that is not selected leaves no trace in the
    row, as long as the same defaults are computed. A focused row with an
    [inactiveTintColor] is the same for any other [inactiveTintColor] and
    any [inactiveBackgroundColor], given or not. A row that is not focused
    and has an [activeBackgroundColor] is the same for any other
    [activeBackgroundColor] and any [activeTintColor], given or not. (A
    default that is computed goes through the colour library, so the rows
    compared are ones that compute the same defaults from the same
    colours.) *)
Theorem unselected_colors_leave_no_trace (h : Host) (p : Props) :
  (forall (t t' : string) (background : option string),
     focused p = Some true ->
     inactiveTintColor p = Some t ->
     @DrawerItem h (with_inactive_colors (Some t') background p)
     = @DrawerItem h p)
  /\ (forall (b b' : string) (tint : option string),
        focused p <> Some true ->
        activeBackgroundColor p = Some b ->
        @DrawerItem h (with_active_colors tint (Some b') p)
        = @DrawerItem h p).
Proof.
  destruct p as [r hr l ic f op at_ it ab ib pc po ls st afs al tid ot].
  simpl. split.
  - intros t t' background -> ->. reflexivity.
  - intros b b' tint Hf ->. destruct f as [[]|]; [done| |]; reflexivity.
Qed.

(** X12: with [activeTintColor], [inactiveTintColor] and
    [activeBackgroundColor] given by the caller, the theme's colours and
    the colour arithmetic are not used: the row is the same under any
    other colours of the theme. *)
Theorem overridden_colors_ignore_the_theme
    (h : Host) (c : Colors) (alpha : string -> Q -> string) (p : Props)
    (a i b : string) :
  activeTintColor p = Some a ->
  inactiveTintColor p = Some i ->
  activeBackgroundColor p = Some b ->
  @DrawerItem (with_theme_colors c alpha h) p = @DrawerItem h p.
Proof.
  destruct p as [r hr l ic f op at_ it ab ib pc po ls st afs al tid ot].
  simpl. intros -> -> ->. reflexivity.
Qed.

(** X13: the platform decides which element wraps the content and nothing
    else: the icon and label content, the style of the pressable region
    and every prop of the container but [children] are the same on
    every platform. *)
Theorem row_content_is_platform_independent
    (h : Host) (os : string) (p : Props) :
  content (pressable (@DrawerItem (on_platform os h) p))
  = content (pressable (@DrawerItem h p))
  /\ regionStyle (pressable (@DrawerItem (on_platform os h) p))
     = regionStyle (pressable (@DrawerItem h p))
  /\ delete "children" (elemProps (@DrawerItem (on_platform os h) p))
     = delete "children" (elemProps (@DrawerItem h p)).
Proof.
  split; [|split].
  - rewrite !pressable_DrawerItem, !content_LinkPressable. reflexivity.
  - rewrite !pressable_DrawerItem, !regionStyle_LinkPressable. reflexivity.
  - unfold DrawerItem, elemProps. rewrite !delete_insert_eq. reflexivity.
Qed.

(** ** Further rows and events, evaluated *)

Lemma link_interception_witness :
  press (@LinkPressable webHost handlerProps) click = [PreventDefault]
  /\ press (@LinkPressable webHost handlerProps) touch = [].
Proof.
  destruct (@link_interception_exactly_plain_primary_clicks webHost
              handlerProps click eq_refl) as (Hclick & _ & _).
  destruct (@link_interception_exactly_plain_primary_clicks webHost
              handlerProps touch eq_refl) as (_ & Htouch & _).
  split.
  - apply Hclick. unfold plainPrimaryClick. simpl. tauto.
  - apply Htouch. unfold plainPrimaryClick. simpl.
    intros (Hm & _). discriminate Hm.
Defined.

Lemma unpicked_props_witness :
  elemProps (@LinkPressable webHost handlerProps) !! "testID"
  = handlerProps !! "testID".
Proof.
  apply (@unpicked_props_are_passed_on webHost handlerProps "testID").
  - unfold LinkPressable_picked. compute_done.
  - intros _. discriminate.
Defined.

Lemma gesture_mode_drops_witness :
  elemProps (@LinkPressable nativeHost handlerProps) !! "onLongPress" = None.
Proof.
  apply (@gesture_mode_drops_secondary_handlers nativeHost handlerProps
           "onLongPress").
  - vm_compute. discriminate.
  - compute_done.
Defined.

Lemma link_mode_normalises_witness :
  member (@LinkPressable webHost handlerProps) "onPressIn" = VUndefined.
Proof.
  destruct (@link_mode_normalises_secondary_handlers webHost handlerProps
              "onPressIn" eq_refl) as (_ & Hnull & _).
  - compute_done.
  - apply Hnull. vm_compute. reflexivity.
Defined.

Lemma link_target_witness :
  member (@LinkPressable webHost handlerProps) "action"
  = @CommonActions_navigate webHost
      (VStr "Home") (VObj (<["tab" := VStr "news"]> ∅))
  /\ member (@LinkPressable webHost handlerProps) "href" = VStr "/home".
Proof.
  apply (@link_target_comes_from_route webHost handlerProps). reflexivity.
Defined.

Lemma accessibilityRole_witness :
  elemProps (pressable (@DrawerItem webHost exampleProps))
    !! "accessibilityRole" = None
  /\ elemProps (pressable (@DrawerItem nativeHost exampleProps))
       !! "accessibilityRole" = Some (VStr "button").
Proof.
  split.
  - apply (@accessibilityRole_reaches_gesture_mode_only webHost exampleProps).
    reflexivity.
  - apply (@accessibilityRole_reaches_gesture_mode_only nativeHost exampleProps).
    vm_compute. discriminate.
Defined.

Lemma native_row_press_witness :
  press (pressable (@DrawerItem nativeHost blankIconProps)) shiftClick
  = [Invoke "onPress" shiftClick].
Proof.
  apply (@native_row_press_calls_onPress_once nativeHost blankIconProps).
  - vm_compute. discriminate.
  - reflexivity.
Defined.

Lemma blank_icon_witness :
  labelWrapperEntry (@DrawerItem webHost blankIconProps) "marginLeft" = VNum 0
  /\ iconSlot (@DrawerItem webHost blankIconProps) = VNull.
Proof.
  apply (@icon_rendering_nothing_keeps_margin_zero webHost blankIconProps
           (fun _ => VNull)); reflexivity.
Defined.

Lemma container_props_witness :
  elemProps (@DrawerItem webHost blankIconProps) !! "collapsable"
  = Some (VBool true)
  /\ elemProps (@DrawerItem webHost exampleProps) !! "collapsable"
     = Some (VBool false).
Proof.
  split.
  - apply (proj1 (@container_takes_further_props webHost blankIconProps
                    "collapsable")); discriminate.
  - apply (proj1 (@container_takes_further_props webHost exampleProps
                    "collapsable")); discriminate.
Defined.

Lemma unselected_colors_witness :
  @DrawerItem webHost
     (with_inactive_colors (Some "#ff0000") (Some "#00ff00")
        (with_inactive_colors (Some "#445566") None focusedProps))
  = @DrawerItem webHost
      (with_inactive_colors (Some "#445566") None focusedProps)
  /\ @DrawerItem webHost (with_active_colors None (Some "#00ff00")
                            blankIconProps)
     = @DrawerItem webHost blankIconProps.
Proof.
  split.
  - apply (proj1 (unselected_colors_leave_no_trace webHost
                    (with_inactive_colors (Some "#445566") None focusedProps))
             "#445566" "#ff0000" (Some "#00ff00")); reflexivity.
  - apply (proj2 (unselected_colors_leave_no_trace webHost blankIconProps)
             "#ddeeff" "#00ff00" None); [discriminate | reflexivity].
Defined.

Lemma overridden_colors_witness :
  @DrawerItem (with_theme_colors {| primary := "red"; text := "blue" |}
                 (fun c _ => c) webHost) blankIconProps
  = @DrawerItem webHost blankIconProps.
Proof.
  apply (overridden_colors_ignore_the_theme webHost
           {| primary := "red"; text := "blue" |} (fun c _ => c)
           blankIconProps "#112233" "#445566" "#ddeeff"); reflexivity.
Defined.

Lemma C3_witness :
  foregroundIs (@DrawerItem webHost focusedProps) focusedProps true "#112233"
  /\ containerEntry (@DrawerItem webHost blankIconProps) "backgroundColor"
     = VStr "#ffffff"
  /\ foregroundIs (@DrawerItem webHost blankIconProps) blankIconProps
       false "#445566".
Proof.
  destruct (@C3_active_pair_iff_focused webHost focusedProps)
    as (_ & _ & _ & _ & _ & _ & _ & _ & Hactive & _).
  destruct (@C3_active_pair_iff_focused webHost blankIconProps)
    as (_ & _ & _ & _ & _ & _ & _ & _ & _ & Hinactive & _ & Hbackground).
  split; [apply Hactive; reflexivity|].
  split; [apply Hbackground; [discriminate | reflexivity]|].
  apply Hinactive; [discriminate | reflexivity].
Defined.
